(** * wallholla: helper utilities around Keras, verified against their code

    A shallow embedding of [walholla/models.py] and [utils.py].

    - [Py]      the fragment of Python the two files rely on: exceptions,
                state, dynamically typed values, [len], iteration, [zip],
                [str] of an integer, [os.path.join];
    - [Np]      numpy arrays as a shape and a flat row-major buffer, with
                [np.ones], [squeeze], item assignment with broadcasting;
    - [Keras]   layers, models, optimisers and generators as the records of
                the arguments they were constructed with;
    - [Models]  [resnet_model] and [custom_fc_model];
    - [Utils]   the configuration lookups and the feature cache, run on a
                disk that maps paths to arrays;
    - [Spec]    the vocabulary of the statements;
    - [Demo]    a small environment to run the cache in.

    Conventions.  A Python function that can raise returns a [result]; a
    function that changes an object or the disk threads it through the
    state monad [M], and the state at a raise is kept.  The calls of Keras
    are total: a constructor records its arguments, and what
    [flow_from_directory] and [predict] return is a parameter of the
    development, as are the paths of [settings.py].  What [utils.py] does
    to the outside is recorded as a trace of events.  The calls of
    [logger.debug], with the evaluation of their arguments, are left out.
    Floats are binary64 ([PrimFloat]). *)

From Stdlib Require Import ZArith List Floats.
From stdpp Require Import gmap strings list pretty.

Set Warnings "-register-all,-inexact-float".

Local Open Scope Z_scope.

(* ===================================================================== *)
(** ** Python *)
(* ===================================================================== *)

Module Py.

(** The exceptions the two files can raise, with their message. *)
Inductive exn : Type :=
| ValueError (msg : string)
| TypeError (msg : string)
| KeyError (key : string)
| IndexError (msg : string)
| AttributeError (msg : string)
| FileNotFoundError (path : string).

Inductive result (A : Type) : Type :=
| Ok (a : A)
| Raise (e : exn).
Arguments Ok {A} a.
Arguments Raise {A} e.

Definition is_ok {A} (r : result A) : bool :=
  match r with Ok _ => true | Raise _ => false end.

(** State and exceptions: a computation over a mutable object of type
    [St].  The state at the point of a raise is kept, so that what was
    done before the exception stays observable. *)
Definition M (St A : Type) : Type := St -> result A * St.

Definition ret {St A} (a : A) : M St A := fun s => (Ok a, s).

Definition bind {St A B} (c : M St A) (k : A -> M St B) : M St B :=
  fun s => match c s with
           | (Ok a, s') => k a s'
           | (Raise e, s') => (Raise e, s')
           end.

Definition raise {St A} (e : exn) : M St A := fun s => (Raise e, s).

Definition lift {St A} (r : result A) : M St A := fun s => (r, s).

Definition get {St} : M St St := fun s => (Ok s, s).

Definition modify {St} (f : St -> St) : M St unit := fun s => (Ok tt, f s).

Declare Scope py_scope.
Delimit Scope py_scope with py.
Notation "x <- c ;; k" := (bind c (fun x => k))
  (at level 100, c at next level, right associativity) : py_scope.
Notation "c ;;; k" := (bind c (fun _ => k))
  (at level 100, right associativity) : py_scope.

(** [for x in l: body x] *)
Fixpoint for_each {St A} (l : list A) (body : A -> M St unit) : M St unit :=
  match l with
  | [] => ret tt
  | x :: l' => bind (body x) (fun _ => for_each l' body)
  end.

(** [for x in l: v = body x v], with the loop-carried variable [v]. *)
Fixpoint for_fold {St A B} (l : list A) (v : B) (body : A -> B -> M St B) : M St B :=
  match l with
  | [] => ret v
  | x :: l' => bind (body x v) (fun v' => for_fold l' v' body)
  end.

(** A loop whose body raises or updates its variable, and leaves the
    state alone. *)
Fixpoint fold_result {A B} (f : A -> B -> result B) (l : list A) (v : B) : result B :=
  match l with
  | [] => Ok v
  | x :: l' =>
      match f x v with
      | Ok v' => fold_result f l' v'
      | Raise e => Raise e
      end
  end.

(** Dynamically typed values: what the arguments of [custom_fc_model] can
    be. *)
Inductive pyval : Type :=
| VNone
| VBool (b : bool)
| VInt (z : Z)
| VFloat (f : float)
| VStr (s : string)
| VList (l : list pyval)
| VTuple (l : list pyval).

Definition type_name (v : pyval) : string :=
  match v with
  | VNone => "NoneType"
  | VBool _ => "bool"
  | VInt _ => "int"
  | VFloat _ => "float"
  | VStr _ => "str"
  | VList _ => "list"
  | VTuple _ => "tuple"
  end.

(** [type(v) == str] *)
Definition is_str (v : pyval) : bool :=
  match v with VStr _ => true | _ => false end.

(** [np.isscalar(v)]: numbers, booleans and strings are scalars; [None],
    lists and tuples are not. *)
Definition np_isscalar (v : pyval) : bool :=
  match v with
  | VBool _ | VInt _ | VFloat _ | VStr _ => true
  | VNone | VList _ | VTuple _ => false
  end.

(** [len(v)] *)
Definition len (v : pyval) : result nat :=
  match v with
  | VStr s => Ok (String.length s)
  | VList l | VTuple l => Ok (length l)
  | _ => Raise (TypeError ("object of type '" +:+ type_name v +:+ "' has no len()"))
  end.

Fixpoint chars (s : string) : list pyval :=
  match s with
  | EmptyString => []
  | String c s' => VStr (String c EmptyString) :: chars s'
  end.

(** [iter(v)], run to the end. *)
Definition iter (v : pyval) : result (list pyval) :=
  match v with
  | VStr s => Ok (chars s)
  | VList l | VTuple l => Ok l
  | _ => Raise (TypeError ("'" +:+ type_name v +:+ "' object is not iterable"))
  end.

(** [v > 0] *)
Definition gt0 (v : pyval) : result bool :=
  match v with
  | VBool b => Ok b
  | VInt z => Ok (0 <? z)
  | VFloat f => Ok (PrimFloat.ltb 0 f)
  | _ => Raise (TypeError ("'>' not supported between instances of '"
                           +:+ type_name v +:+ "' and 'int'"))
  end.

(** [n * [v]] *)
Definition list_mul (n : nat) (v : pyval) : pyval := VList (repeat v n).

(** [zip(a, b, c, d)]: stops at the shortest. *)
Fixpoint zip4 {A B C D} (a : list A) (b : list B) (c : list C) (d : list D)
  : list (A * B * C * D) :=
  match a, b, c, d with
  | x :: a', y :: b', z :: c', w :: d' => (x, y, z, w) :: zip4 a' b' c' d'
  | _, _, _, _ => []
  end.

(** [str(z)] for an integer. *)
Definition str (z : Z) : string := pretty z.

(** [sep.join(l)] *)
Fixpoint join (sep : string) (l : list string) : string :=
  match l with
  | [] => ""
  | [s] => s
  | s :: l' => s +:+ sep +:+ join sep l'
  end.

Definition startswith (p s : string) : bool := String.prefix p s.

(** [s.endswith(suffix)]: [s] or one of its tails is [suffix]. *)
Fixpoint endswith (suffix s : string) : bool :=
  String.eqb s suffix
  || match s with
     | EmptyString => false
     | String _ s' => endswith suffix s'
     end.

(** [os.path.join(a, b)] on a POSIX system. *)
Definition path_join (a b : string) : string :=
  if startswith "/" b then b
  else if (String.eqb a "" || endswith "/" a)%bool then a +:+ b
  else a +:+ "/" +:+ b.

End Py.

(* ===================================================================== *)
(** ** numpy arrays *)
(* ===================================================================== *)

Module Np.
Import Py.

(** An array is its shape and its elements in row-major order. *)
Record ndarray : Type := Array { shape : list Z; data : list float }.

Definition size (sh : list Z) : Z := fold_right Z.mul 1 sh.

(** [np.ones(shape=sh)] *)
Definition ones (sh : list Z) : result ndarray :=
  if forallb (fun d => 0 <=? d) sh
  then Ok (Array sh (repeat 1%float (Z.to_nat (size sh))))
  else Raise (ValueError "negative dimensions are not allowed").

(** [a.squeeze()]: the axes of length one are dropped. *)
Definition squeeze (a : ndarray) : ndarray :=
  Array (filter (fun d => d ≠ 1) (shape a)) (data a).

(** Broadcasting a value of shape [s] into a place of shape [t].  Leading
    axes of length one of the value are dropped while it has more axes
    than the place; then the shapes are aligned on the right, and an axis
    of the value either has the length of the place's or length one. *)
Fixpoint strip_ones (k : nat) (s : list Z) : list Z :=
  match k, s with
  | S k', 1 :: s' => strip_ones k' s'
  | _, _ => s
  end.

Definition align (s t : list Z) : list Z :=
  let s' := strip_ones (length s - length t) s in
  repeat 1 (length t - length s') ++ s'.

Fixpoint compatible (s t : list Z) : bool :=
  match s, t with
  | [], [] => true
  | si :: s', ti :: t' => ((si =? ti) || (si =? 1)) && compatible s' t'
  | _, _ => false
  end.

Fixpoint broadcast_data (s t : list Z) (d : list float) : list float :=
  match s, t with
  | si :: s', ti :: t' =>
      let c := Z.to_nat (size s') in
      if si =? ti
      then concat (map (fun k => broadcast_data s' t' (firstn c (skipn (k * c) d)))
                       (seq 0 (Z.to_nat ti)))
      else concat (repeat (broadcast_data s' t' d) (Z.to_nat ti))
  | _, _ => d
  end.

Definition broadcast (v : ndarray) (t : list Z) : result (list float) :=
  let s := align (shape v) t in
  if compatible s t
  then Ok (broadcast_data s t (data v))
  else Raise (ValueError "could not broadcast input array into the indexed shape").

(** [a[i] = v]: the [i]-th block along the first axis is overwritten, the
    shape of [a] stays. *)
Definition setitem (a : ndarray) (i : Z) (v : ndarray) : result ndarray :=
  match shape a with
  | [] => Raise (IndexError "too many indices for array")
  | n :: t =>
      if (0 <=? i) && (i <? n)
      then match broadcast v t with
           | Ok row =>
               let c := Z.to_nat (size t) in
               let off := (Z.to_nat i * c)%nat in
               Ok (Array (shape a) (firstn off (data a) ++ row ++ skipn (off + c) (data a)))
           | Raise e => Raise e
           end
      else Raise (IndexError "index is out of bounds for axis 0")
  end.

(** [a[i, :] = v]: as [a[i] = v], for an array of two axes or more. *)
Definition setitem_row (a : ndarray) (i : Z) (v : ndarray) : result ndarray :=
  match shape a with
  | _ :: _ :: _ => setitem a i v
  | _ => Raise (IndexError "too many indices for array")
  end.

(** [np.save(file, arr)] appends [.npy] to a name that does not end in
    it. *)
Definition save_path (file : string) : string :=
  if endswith ".npy" file then file else file +:+ ".npy".

End Np.

(* ===================================================================== *)
(** ** Keras objects *)
(* ===================================================================== *)

Module Keras.
Import Py.

(** A layer is the record of its constructor's arguments.  An argument
    that is not passed is [None]. *)
Inductive layer : Type :=
| InputLayer (shape : pyval)
| Dense (units activation : pyval) (input_shape : option pyval)
| Dropout (rate : pyval)
| Add.



(** *** [Sequential]: a list of layers, [model.add] appends. *)
Definition Sequential : Type := list layer.

Definition Sequential_new : Sequential := [].

Definition add (l : layer) : M Sequential unit := modify (fun m => m ++ [l]).

(** *** The functional API.  Calling a layer on tensors creates a node of
    the graph; a tensor is the index of the node that produced it. *)
Record node : Type := Node { n_layer : layer; n_inbound : list nat }.

Definition graph : Type := list node.
Definition tensor : Type := nat.



Record Model : Type :=
  Model_new { m_graph : graph; m_inputs : tensor; m_outputs : tensor }.

(** The nodes a model keeps are those its outputs depend on.  Inbound
    tensors were created before the node that consumes them, so one pass
    from the last node to the first finds them all. *)
Fixpoint needed_from (rev_nodes : list (nat * node)) (needed : gset nat) : gset nat :=
  match rev_nodes with
  | [] => needed
  | (i, nd) :: rest =>
      if decide (i ∈ needed)
      then needed_from rest (needed ∪ list_to_set (n_inbound nd))
      else needed_from rest needed
  end.

Definition indexed {A} (l : list A) : list (nat * A) := zip (seq 0 (length l)) l.

Definition needed (m : Model) : gset nat :=
  needed_from (rev (indexed (m_graph m))) {[ m_outputs m ]}.








(** [ImageDataGenerator(...)]: a keyword that is not passed is [None]. *)
Record ImageDataGenerator : Type := ImageDataGenerator_new {
  rescale : option float;
  shear_range : option float;
  zoom_range : option float;
  horizontal_flip : option bool
}.

(** The iterator returned by [flow_from_directory]: the shape of one
    image, the number of batches drawn so far, and the outcome of the
    [k]-th [img, label = next(it)]. *)
Record DirectoryIterator : Type := DirectoryIterator_new {
  image_shape : list Z;
  batch_index : nat;
  batch_at : nat -> result (Np.ndarray * Np.ndarray)
}.

Definition next (it : DirectoryIterator)
  : result (Np.ndarray * Np.ndarray) * DirectoryIterator :=
  (batch_at it (batch_index it),
   DirectoryIterator_new (image_shape it) (S (batch_index it)) (batch_at it)).

(** [applications.VGG16(input_shape=..., include_top=..., weights=...)]
    and its siblings. *)
Record Application : Type := Application_new {
  architecture : string;
  app_input_shape : list Z;
  include_top : bool;
  weights : string
}.

End Keras.

(* ===================================================================== *)
(** ** walholla/models.py *)
(* ===================================================================== *)

Module Models.
Import Py Keras.
Local Open Scope py_scope.




(** [custom_fc_model(input_dim, layer_definitions, activations="relu",
    dropouts=0.0)].  The state is the [Sequential] under construction. *)
Definition custom_fc_layer (input_shape : pyval) (t : nat * pyval * pyval * pyval)
  : M Sequential unit :=
  let '(i, n_neurons, activation, dropout) := t in
  (if Nat.eqb i 0
   then add (Dense n_neurons activation (Some input_shape))
   else add (Dense n_neurons activation None));;;
  b <- lift (gt0 dropout);;
  if b then add (Dropout dropout) else ret tt.

Definition custom_fc_build (input_dim layer_definitions activations dropouts : pyval)
  : M Sequential Sequential :=
  let input_shape := VTuple [input_dim] in
  activations <-
    (if is_str activations
     then n <- lift (len layer_definitions);; ret (list_mul n activations)
     else ret activations);;
  dropouts <-
    (if np_isscalar dropouts
     then n <- lift (len activations);; ret (list_mul n dropouts)
     else ret dropouts);;
  n <- lift (len layer_definitions);;
  lds <- lift (iter layer_definitions);;
  acts <- lift (iter activations);;
  drops <- lift (iter dropouts);;
  for_each (zip4 (seq 0 n) lds acts drops) (custom_fc_layer input_shape);;;
  get.

(** The outcome of a call: what it returns or raises, and the layers that
    were added to the model by then. *)
Definition custom_fc_model (input_dim layer_definitions activations dropouts : pyval)
  : result Sequential * Sequential :=
  custom_fc_build input_dim layer_definitions activations dropouts Sequential_new.

Definition default_dropouts : pyval := VFloat 0.

End Models.

(* ===================================================================== *)
(** ** utils.py *)
(* ===================================================================== *)

Module Utils.
Import Py Np Keras.
Local Open Scope py_scope.

(** What a call does to the outside, in the order it happens. *)
Inductive event : Type :=
| Exists (path : string) (found : bool)
| CallMake (dataset generator class_mode model : string) (n_img : Z) (img_size : Z * Z)
| Predict (base_model : Application) (x : ndarray)
| Save (path : string) (a : ndarray)
| Load (path : string).

(** The disk (the arrays stored under each path) and the events so far. *)
Record world : Type := World { fs : gmap string ndarray; trace : list event }.

Definition emit (e : event) : M world unit :=
  modify (fun w => World (fs w) (trace w ++ [e])).

(** [os.path.exists(path)] *)
Definition path_exists (path : string) : M world bool :=
  w <- get;;
  let found := bool_decide (is_Some (fs w !! path)) in
  emit (Exists path found);;;
  ret found.

(** [np.save(file, arr)] *)
Definition np_save (file : string) (arr : ndarray) : M world unit :=
  let path := save_path file in
  modify (fun w => World (<[path := arr]> (fs w)) (trace w));;;
  emit (Save path arr).

(** [np.load(path)] *)
Definition np_load (path : string) : M world ndarray :=
  w <- get;;
  match fs w !! path with
  | Some a => emit (Load path);;; ret a
  | None => raise (FileNotFoundError path)
  end.

(** [a, b, c, d = l] *)
Definition unpack4 {A} (l : list A) : result (A * A * A * A) :=
  match l with
  | [a; b; c; d] => Ok (a, b, c, d)
  | _ => Raise (ValueError "wrong number of values to unpack (expected 4)")
  end.

(** [d[key]] for a dictionary with string keys. *)
Definition getitem {A} (d : gmap string A) (key : string) : result A :=
  match d !! key with
  | Some a => Ok a
  | None => Raise (KeyError key)
  end.


(** [get_image_generator(kind="random")].  A call that reaches the end of
    the body returns [None]. *)
Definition get_image_generator (kind : string) : result (option ImageDataGenerator) :=
  if bool_decide (kind ∉ ["random"; "very-random"; "not-random"])
  then Raise (ValueError "kind needs to be in `random`, `very-random`, `not-random`")
  else if String.eqb kind "not-random"
  then Ok (Some (ImageDataGenerator_new (Some (1 / 255)%float) None None None))
  else if String.eqb kind "random"
  then Ok (Some (ImageDataGenerator_new (Some (1 / 255)%float)
                   (Some 0.1%float) (Some 0.1%float) None))
  else if String.eqb kind "very-random"
  then Ok (Some (ImageDataGenerator_new (Some (1 / 255)%float)
                   (Some 0.2%float) (Some 0.2%float) (Some true)))
  else Ok None.

(** [make_pretrained_filenames(dataset, generator, model, n_img, img_size,
    npy=True)] *)
Definition make_pretrained_filenames (dataset generator model : string) (n_img : Z)
    (img_size : Z * Z) (npy : bool) : list string :=
  let base_name :=
    dataset +:+ "-" +:+ model +:+ "-" +:+ generator +:+ "-" +:+ str n_img +:+ "-"
    +:+ join "x" (map str [fst img_size; snd img_size]) in
  let names :=
    flat_map (fun settype =>
                map (fun xy => base_name +:+ "-" +:+ settype +:+ "-" +:+ xy)
                    ["data"; "label"])
             ["train"; "valid"] in
  if npy then map (fun n => n +:+ ".npy") names else names.

Section Environment.

(** [settings.BASEPATH] and [settings.PRETRAINED_PATH]. *)
Variable BASEPATH PRETRAINED_PATH : string.
(** [K.image_data_format()] *)
Variable image_data_format : string.
(** [datagen.flow_from_directory(directory, target_size, batch_size,
    class_mode)] *)
Variable flow_from_directory :
  ImageDataGenerator -> string -> Z * Z -> Z -> string -> DirectoryIterator.
(** [base_model.predict(x)] *)
Variable predict : Application -> ndarray -> ndarray.

(** [get_pretrained_model(model, img_size)] *)
Definition possible_names : list string := ["vgg16"; "vgg19"; "mobilenet"; "xception"].

Definition get_pretrained_model (model : string) (img_size : Z * Z) : result Application :=
  if bool_decide (model ∉ possible_names)
  then Raise (ValueError
         "model needs to be either ['vgg16', 'vgg19', 'mobilenet', 'xception']")
  else
    let '(width, height) := img_size in
    let input_shape :=
      if String.eqb image_data_format "channels_first"
      then [3; width; height] else [width; height; 3] in
    let models : gmap string Application :=
      list_to_map [("vgg16", Application_new "VGG16" input_shape false "imagenet");
                   ("vgg19", Application_new "VGG19" input_shape false "imagenet");
                   ("mobilenet", Application_new "MobileNet" input_shape false "imagenet");
                   ("xception", Application_new "Xception" input_shape false "imagenet")] in
    getitem models model.

(** [get_folders(dataset="catdog")] *)
Definition get_folders (dataset : string) : string * string :=
  (path_join (path_join BASEPATH dataset) "train",
   path_join (path_join BASEPATH dataset) "validation").

(** The variables the loop of [make_pretrained_weights] updates. *)
Record loop_state : Type := LoopState {
  st_train_generator : DirectoryIterator;
  st_valid_generator : DirectoryIterator;
  st_x_train : ndarray;
  st_y_train : ndarray;
  st_x_valid : ndarray;
  st_y_valid : ndarray
}.

Definition fill_step (i : nat) (st : loop_state) : result loop_state :=
  match next (st_train_generator st) with
  | (Raise e, _) => Raise e
  | (Ok (img_data_train, label_data_train), train_generator) =>
  match next (st_valid_generator st) with
  | (Raise e, _) => Raise e
  | (Ok (img_data_valid, label_data_valid), valid_generator) =>
  match setitem_row (st_x_train st) (Z.of_nat i) (squeeze img_data_train) with
  | Raise e => Raise e
  | Ok x_train =>
  match setitem (st_y_train st) (Z.of_nat i) (squeeze label_data_train) with
  | Raise e => Raise e
  | Ok y_train =>
  match setitem_row (st_x_valid st) (Z.of_nat i) (squeeze img_data_valid) with
  | Raise e => Raise e
  | Ok x_valid =>
  match setitem (st_y_valid st) (Z.of_nat i) (squeeze label_data_valid) with
  | Raise e => Raise e
  | Ok y_valid =>
      Ok (LoopState train_generator valid_generator x_train y_train x_valid y_valid)
  end end end end end end.

(** [base_model.predict(x)], recorded. *)
Definition run_predict (base_model : Application) (x : ndarray) : M world ndarray :=
  emit (Predict base_model x);;;
  ret (predict base_model x).

(** [make_pretrained_weights(dataset, generator, class_mode, model, n_img,
    img_size)] *)
Definition make_pretrained_weights (dataset generator class_mode model : string)
    (n_img : Z) (img_size : Z * Z) : M world unit :=
  emit (CallMake dataset generator class_mode model n_img img_size);;;
  let filename := make_pretrained_filenames dataset generator model n_img img_size false in
  names <- lift (unpack4 filename);;
  let '(x_train_fname, y_train_fname, x_valid_fname, y_valid_fname) := names in
  datagen <- lift (get_image_generator generator);;
  datagen <- lift (match datagen with
                   | Some g => Ok g
                   | None => Raise (AttributeError
                       "'NoneType' object has no attribute 'flow_from_directory'")
                   end);;
  let '(train_folder, valid_folder) := get_folders dataset in
  let train_generator := flow_from_directory datagen train_folder img_size 1 class_mode in
  let valid_generator := flow_from_directory datagen valid_folder img_size 1 class_mode in
  let x_shape := n_img :: image_shape train_generator in
  let y_shape := [n_img] in
  x_train <- lift (ones x_shape);;
  y_train <- lift (ones y_shape);;
  x_valid <- lift (ones x_shape);;
  y_valid <- lift (ones y_shape);;
  st <- for_fold (seq 0 (Z.to_nat n_img))
          (LoopState train_generator valid_generator x_train y_train x_valid y_valid)
          (fun i st => lift (fill_step i st));;
  base_model <- lift (get_pretrained_model model img_size);;
  pretrained_train <- run_predict base_model (st_x_train st);;
  np_save (path_join PRETRAINED_PATH x_train_fname) pretrained_train;;;
  np_save (path_join PRETRAINED_PATH y_train_fname) (st_y_train st);;;
  pretrained_valid <- run_predict base_model (st_x_valid st);;
  np_save (path_join PRETRAINED_PATH x_valid_fname) pretrained_valid;;;
  np_save (path_join PRETRAINED_PATH y_valid_fname) (st_y_valid st).

(** [get_pretrained_weights(dataset, generator, class_mode, model, n_img,
    img_size)]: the body of its loop over the file names, and the
    function. *)
Definition check_file (dataset generator class_mode model : string)
    (n_img : Z) (img_size : Z * Z) (name : string) : M world unit :=
  found <- path_exists (path_join PRETRAINED_PATH name);;
  if negb found
  then make_pretrained_weights dataset generator class_mode model n_img img_size
  else ret tt.

Definition get_pretrained_weights (dataset generator class_mode model : string)
    (n_img : Z) (img_size : Z * Z) : M world (ndarray * ndarray * ndarray * ndarray) :=
  let filenames := make_pretrained_filenames dataset generator model n_img img_size true in
  for_each filenames (check_file dataset generator class_mode model n_img img_size);;;
  paths <- lift (unpack4 (map (path_join PRETRAINED_PATH) filenames));;
  let '(x_train_fpath, y_train_fpath, x_valid_fpath, y_valid_fpath) := paths in
  x_train <- np_load x_train_fpath;;
  y_train <- np_load y_train_fpath;;
  x_valid <- np_load x_valid_fpath;;
  y_valid <- np_load y_valid_fpath;;
  ret (x_train, y_train, x_valid, y_valid).

End Environment.

(** *** Reading a trace *)
Definition is_call (e : event) : bool :=
  match e with CallMake _ _ _ _ _ _ => true | _ => false end.

Definition calls (t : list event) : list event := List.filter is_call t.

Definition saved_paths (t : list event) : list string :=
  flat_map (fun e => match e with Save p _ => [p] | _ => [] end) t.

Definition checked_paths (t : list event) : list string :=
  flat_map (fun e => match e with Exists p _ => [p] | _ => [] end) t.

Definition loaded_paths (t : list event) : list string :=
  flat_map (fun e => match e with Load p => [p] | _ => [] end) t.

(** The paths that an existence check did not find. *)
Definition missed_paths (t : list event) : list string :=
  flat_map (fun e => match e with Exists p false => [p] | _ => [] end) t.

End Utils.

(* ===================================================================== *)
(** ** What the specification says, in the terms of the code *)
(* ===================================================================== *)

Module Spec.
Import Py Np Keras.











(** The naming convention of the cache: a base name, the kind of array,
    and the extension. *)
Definition cache_base (dataset model generator : string) (n_img width height : Z)
  : string :=
  dataset +:+ "-" +:+ model +:+ "-" +:+ generator +:+ "-" +:+ str n_img +:+ "-"
  +:+ str width +:+ "x" +:+ str height.

Definition cache_kinds : list string :=
  ["-train-data"; "-train-label"; "-valid-data"; "-valid-label"].

Definition cache_name (dataset model generator : string) (n_img : Z) (img_size : Z * Z)
    (npy : bool) (kind : string) : string :=
  (cache_base dataset model generator n_img (fst img_size) (snd img_size) +:+ kind)
  +:+ (if npy then ".npy" else "").

(** The four files of the cache, under [root]. *)
Definition cache_paths (root dataset model generator : string) (n_img : Z)
    (img_size : Z * Z) : list string :=
  map (fun kind => path_join root (cache_name dataset model generator n_img img_size true kind))
      cache_kinds.

(** The four arrays of the loop of [make_pretrained_weights] have the
    shapes [sx] (images) and [sy] (labels). *)
Definition same_shapes (sx sy : list Z) (st : Utils.loop_state) : Prop :=
  shape (Utils.st_x_train st) = sx /\ shape (Utils.st_y_train st) = sy
  /\ shape (Utils.st_x_valid st) = sx /\ shape (Utils.st_y_valid st) = sy.

(** The world after a complete run of [make_pretrained_weights] from [w]:
    the four files are on the disk, and the trace has the call, the two
    predictions and the four writes. *)
Definition regenerated (predict : Application -> ndarray -> ndarray)
    (root dataset generator class_mode model : string) (n_img : Z) (img_size : Z * Z)
    (base_model : Application) (st : Utils.loop_state) (w : Utils.world) : Utils.world :=
  let p kind :=
    path_join root (cache_name dataset model generator n_img img_size true kind) in
  let pretrained_train := predict base_model (Utils.st_x_train st) in
  let pretrained_valid := predict base_model (Utils.st_x_valid st) in
  Utils.World
    (<[p "-valid-label" := Utils.st_y_valid st]>
       (<[p "-valid-data" := pretrained_valid]>
          (<[p "-train-label" := Utils.st_y_train st]>
             (<[p "-train-data" := pretrained_train]> (Utils.fs w)))))
    (Utils.trace w
     ++ [Utils.CallMake dataset generator class_mode model n_img img_size;
         Utils.Predict base_model (Utils.st_x_train st);
         Utils.Save (p "-train-data") pretrained_train;
         Utils.Save (p "-train-label") (Utils.st_y_train st);
         Utils.Predict base_model (Utils.st_x_valid st);
         Utils.Save (p "-valid-data") pretrained_valid;
         Utils.Save (p "-valid-label") (Utils.st_y_valid st)]).




End Spec.

(* ===================================================================== *)
(** ** A small environment to run the cache in *)
(* ===================================================================== *)

Module Demo.
Import Py Np Keras Utils.

(** A directory of images of the requested size with three channels: the
    [k]-th batch is one image filled with the parity of [k], labelled with
    that parity. *)
Definition parity (k : nat) : float := if Nat.even k then 0%float else 1%float.

Definition flow_from_directory (datagen : ImageDataGenerator) (directory : string)
    (target_size : Z * Z) (batch_size : Z) (class_mode : string) : DirectoryIterator :=
  DirectoryIterator_new [fst target_size; snd target_size; 3] 0
    (fun k => Ok (Array [1; fst target_size; snd target_size; 3]
                    (repeat (parity k)
                       (Z.to_nat (fst target_size * snd target_size * 3))),
                  Array [1] [parity k])).

(** A model whose features are the mean-free first pixel of each image. *)
Definition predict (base_model : Application) (x : ndarray) : ndarray :=
  let n := hd 0 (shape x) in
  let row := Z.to_nat (size (tl (shape x))) in
  Array [n; 1] (map (fun i => nth (i * row) (data x) 0%float) (seq 0 (Z.to_nat n))).

Definition make_pretrained_weights :=
  Utils.make_pretrained_weights "/data" "/cache" "channels_last" flow_from_directory
    predict "catdog" "random" "binary" "vgg16" 2 (2, 2).

Definition get_pretrained_weights :=
  Utils.get_pretrained_weights "/data" "/cache" "channels_last" flow_from_directory
    predict "catdog" "random" "binary" "vgg16" 2 (2, 2).

Definition empty_disk : world := World ∅ [].



End Demo.

(* ===================================================================== *)
(** ** What the images and labels of a run are *)
(* ===================================================================== *)

Module Fill.
Import Py Np Keras.







End Fill.

(* ===================================================================== *)
(** ** How the tensors of [resnet_model] are connected *)
(* ===================================================================== *)

Module Wiring.
Import Py Keras.



End Wiring.


(* ===================================================================== *)
(** ** A directory with one-hot labels *)
(* ===================================================================== *)

Module OneHot.
Import Py Np Keras.

(** As the directory of [Demo], with the label of the [k]-th image given
    as a row of two entries, one for each class. *)
Definition flow_from_directory (datagen : ImageDataGenerator) (directory : string)
    (target_size : Z * Z) (batch_size : Z) (class_mode : string) : DirectoryIterator :=
  DirectoryIterator_new [fst target_size; snd target_size; 3] 0
    (fun k => Ok (Array [1; fst target_size; snd target_size; 3]
                    (repeat (Demo.parity k)
                       (Z.to_nat (fst target_size * snd target_size * 3))),
                  Array [1; 2] [Demo.parity (S k); Demo.parity k])).

End OneHot.


(* ===================================================================== *)
(** ** Proofs: the monad *)
(* ===================================================================== *)

Import Py Np Keras Models Utils Spec.

Lemma bind_ok {St A B} (c : M St A) (k : A -> M St B) s a s' :
  c s = (Ok a, s') -> bind c k s = k a s'.
Proof. intros H. unfold bind. now rewrite H. Qed.

Lemma bind_raise {St A B} (c : M St A) (k : A -> M St B) s e s' :
  c s = (Raise e, s') -> bind c k s = (Raise e, s').
Proof. intros H. unfold bind. now rewrite H. Qed.

Lemma bind_lift_ok {St A B} (r : result A) (k : A -> M St B) s a :
  r = Ok a -> bind (lift r) k s = k a s.
Proof. intros ->. reflexivity. Qed.

Lemma bind_lift_raise {St A B} (r : result A) (k : A -> M St B) s e :
  r = Raise e -> bind (lift r) k s = (Raise e, s).
Proof. intros ->. reflexivity. Qed.

(* ===================================================================== *)
(** ** Proofs: [custom_fc_model] *)
(* ===================================================================== *)



Lemma len_raises_TypeError v :
  is_ok (len v) = false -> exists msg, len v = Raise (TypeError msg).
Proof. destruct v; simpl; intros H; try discriminate; eauto. Qed.
















Lemma len_cases v : (exists n, len v = Ok n) \/ (exists msg, len v = Raise (TypeError msg)).
Proof. destruct v; simpl; eauto. Qed.

(** C9.  When [layer_definitions] has no [len()], as the integer [1] that
    the repository's test passes, [custom_fc_model] raises [TypeError] and
    no layer has been added to the model by then; so the call
    [custom_fc_model(16, 1, [1.0, 0.5, 2])] of [test_custom_fc_model]
    builds no model. *)
Theorem custom_fc_model_unsized :
  (forall input_dim layer_definitions activations dropouts,
     is_ok (len layer_definitions) = false ->
     exists msg,
       custom_fc_model input_dim layer_definitions activations dropouts
       = (Raise (TypeError msg), Sequential_new))
  /\ custom_fc_model (VInt 16) (VInt 1) (VList [VFloat 1; VFloat 0.5; VInt 2])
       default_dropouts
     = (Raise (TypeError "object of type 'int' has no len()"), Sequential_new).
Proof.
  split; [|reflexivity].
  intros input_dim ld acts drops Hld.
  destruct (len_raises_TypeError _ Hld) as [msg Hmsg].
  unfold custom_fc_model, custom_fc_build.
  destruct (is_str acts).
  - exists msg. erewrite bind_raise; [reflexivity|].
    now erewrite bind_lift_raise by exact Hmsg.
  - erewrite bind_ok by reflexivity.
    destruct (np_isscalar drops).
    + destruct (len_cases acts) as [[n Hn] | [msg' Hn]].
      * exists msg. erewrite bind_ok.
        2:{ erewrite bind_lift_ok by exact Hn. reflexivity. }
        now erewrite bind_lift_raise by exact Hmsg.
      * exists msg'. erewrite bind_raise; [reflexivity|].
        now erewrite bind_lift_raise by exact Hn.
    + exists msg. erewrite bind_ok by reflexivity.
      now erewrite bind_lift_raise by exact Hmsg.
Qed.

(** The test's call: an integer where the layer sizes are expected. *)
Lemma custom_fc_model_unsized_witness :
  is_ok (len (VInt 1)) = false
  /\ exists msg,
       custom_fc_model (VInt 16) (VInt 1) (VList [VFloat 1; VFloat 0.5; VInt 2])
         default_dropouts
       = (Raise (TypeError msg), Sequential_new).
Proof.
  split; [reflexivity|].
  apply (proj1 custom_fc_model_unsized (VInt 16) (VInt 1)); reflexivity.
Defined.




(** *** Rates that are no numbers *)




(* ===================================================================== *)
(** ** Proofs: [resnet_model] *)
(* ===================================================================== *)

Section Resnet.
Variables (width : Z) (activation : string) (dropout : float).









End Resnet.

(** *** The layers a model keeps *)














(** *** The skip connections *)

Section Skip.
Import Wiring.
Variables (width : Z) (activation : string) (dropout : float).







End Skip.



(* ===================================================================== *)
(** ** Proofs: the configuration lookups *)
(* ===================================================================== *)

(** Case analysis on membership in a list of literals. *)
Ltac literal_cases H :=
  repeat (apply elem_of_cons in H as [-> | H]); [.. | now apply elem_of_nil in H].



Lemma get_image_generator_cases kind :
  (kind ∈ ["random"; "very-random"; "not-random"]
   /\ exists g, get_image_generator kind = Ok (Some g))
  \/ ((kind ∉ ["random"; "very-random"; "not-random"])
      /\ get_image_generator kind
         = Raise (ValueError "kind needs to be in `random`, `very-random`, `not-random`")).
Proof.
  destruct (decide (kind ∈ ["random"; "very-random"; "not-random"])) as [Hin | Hout].
  - left. split; [exact Hin|]. literal_cases Hin; eexists; vm_compute; reflexivity.
  - right. split; [exact Hout|]. unfold get_image_generator.
    now rewrite bool_decide_eq_true_2.
Qed.


(** C10.  For each of the three kinds [get_image_generator] returns a
    generator with [rescale = 1/255]; [not-random] passes nothing else,
    [random] adds [shear_range = 0.1] and [zoom_range = 0.1], and
    [very-random] adds [shear_range = 0.2], [zoom_range = 0.2] and
    [horizontal_flip = True]. *)
Theorem get_image_generator_configuration :
  get_image_generator "not-random"
  = Ok (Some (ImageDataGenerator_new (Some (1 / 255)%float) None None None))
  /\ get_image_generator "random"
     = Ok (Some (ImageDataGenerator_new (Some (1 / 255)%float)
                   (Some 0.1%float) (Some 0.1%float) None))
  /\ get_image_generator "very-random"
     = Ok (Some (ImageDataGenerator_new (Some (1 / 255)%float)
                   (Some 0.2%float) (Some 0.2%float) (Some true)))
  /\ forall kind r,
       get_image_generator kind = Ok r ->
       exists g, r = Some g /\ rescale g = Some (1 / 255)%float.
Proof.
  repeat split.
  intros kind r Hr.
  destruct (get_image_generator_cases kind) as [[Hin [g Hg]] | [_ Hraise]];
    [|congruence].
  exists g. split; [congruence|].
  literal_cases Hin; vm_compute in Hg; injection Hg as <-; reflexivity.
Qed.

(* ===================================================================== *)
(** ** Proofs: strings and paths *)
(* ===================================================================== *)

Lemma append_nil_l (b : string) : "" +:+ b = b.
Proof. reflexivity. Qed.

Lemma append_cons x (a b : string) : String x a +:+ b = String x (a +:+ b).
Proof. reflexivity. Qed.

Lemma append_assoc (a b c : string) : (a +:+ b) +:+ c = a +:+ (b +:+ c).
Proof.
  induction a as [|x a IH]; [reflexivity|].
  now rewrite !append_cons, IH.
Qed.

Lemma append_nil_r (a : string) : a +:+ "" = a.
Proof.
  induction a as [|x a IH]; [reflexivity|].
  now rewrite append_cons, IH.
Qed.

Lemma length_append (a b : string) :
  String.length (a +:+ b) = (String.length a + String.length b)%nat.
Proof.
  induction a as [|x a IH]; [reflexivity|].
  rewrite append_cons. simpl. now rewrite IH.
Qed.

Lemma startswith_append (a b : string) : startswith a (a +:+ b) = true.
Proof.
  unfold startswith. induction a as [|x a IH]; [now destruct b|].
  rewrite append_cons. simpl.
  destruct (Ascii.ascii_dec x x); [exact IH | congruence].
Qed.

Lemma endswith_refl (s : string) : endswith s s = true.
Proof. destruct s; simpl; [reflexivity|]. now rewrite Ascii.eqb_refl, String.eqb_refl. Qed.

Lemma endswith_append (a suffix : string) : endswith suffix (a +:+ suffix) = true.
Proof.
  induction a as [|x a IH]; [apply endswith_refl|].
  rewrite append_cons. cbn [endswith]. rewrite IH. apply orb_true_r.
Qed.

(** A tail that does not end in [suffix] and is at least as long: no
    string with that tail ends in [suffix]. *)
Lemma endswith_append_false (suffix t : string) :
  endswith suffix t = false -> (String.length suffix <= String.length t)%nat ->
  forall a, endswith suffix (a +:+ t) = false.
Proof.
  intros Ht Hlen a. induction a as [|x a IH]; [exact Ht|].
  rewrite append_cons. cbn [endswith]. rewrite IH, orb_false_r.
  apply String.eqb_neq. intros E.
  apply (f_equal String.length) in E. simpl in E. rewrite length_append in E. lia.
Qed.

Lemma prefix_nil (s : string) : String.prefix "" s = true.
Proof. now destruct s. Qed.

Lemma prefix_cons x y (s t : string) :
  String.prefix (String x s) (String y t)
  = if Ascii.ascii_dec x y then String.prefix s t else false.
Proof. reflexivity. Qed.

Lemma path_join_append (a b c : string) :
  b <> "" -> path_join a (b +:+ c) = path_join a b +:+ c.
Proof.
  intros Hb. destruct b as [|x b]; [congruence|].
  assert (Hs : startswith "/" (String x b +:+ c) = startswith "/" (String x b)).
  { unfold startswith. rewrite append_cons, !prefix_cons, !prefix_nil. reflexivity. }
  unfold path_join. rewrite Hs.
  destruct (startswith "/" (String x b)); [reflexivity|].
  destruct (String.eqb a "" || endswith "/" a)%bool.
  - now rewrite append_assoc.
  - now rewrite !append_assoc.
Qed.

(** Every path that [path_join] returns ends with its second argument. *)
Lemma path_join_tail (a b : string) : exists z, path_join a b = z +:+ b.
Proof.
  unfold path_join. destruct (startswith "/" b); [now exists ""|].
  destruct (String.eqb a "" || endswith "/" a)%bool; [now exists a|].
  exists (a +:+ "/"). now rewrite append_assoc.
Qed.

Lemma path_join_inj (a b b' : string) :
  startswith "/" b = startswith "/" b' -> path_join a b = path_join a b' -> b = b'.
Proof.
  unfold path_join. intros <-.
  destruct (startswith "/" b); [easy|].
  destruct (String.eqb a "" || endswith "/" a)%bool; intros H.
  - now apply String.app_inj in H.
  - apply String.app_inj in H. now apply String.app_inj in H.
Qed.

Lemma startswith_slash_dash (dataset x y : string) :
  startswith "/" (dataset +:+ "-" +:+ x) = startswith "/" (dataset +:+ "-" +:+ y).
Proof.
  unfold startswith. destruct dataset as [|c d]; [reflexivity|].
  rewrite !append_cons, !prefix_cons, !prefix_nil. reflexivity.
Qed.

(* ===================================================================== *)
(** ** Proofs: the names of the cache files *)
(* ===================================================================== *)

Lemma make_pretrained_filenames_eq dataset generator model n_img img_size npy :
  make_pretrained_filenames dataset generator model n_img img_size npy
  = map (cache_name dataset model generator n_img img_size npy) cache_kinds.
Proof.
  destruct img_size as [w h], npy; unfold cache_name, cache_kinds; cbn [fst snd map];
    rewrite ?append_nil_r; reflexivity.
Qed.

Lemma cache_name_prefix dataset generator model n_img img_size npy kind :
  startswith (cache_base dataset model generator n_img (fst img_size) (snd img_size))
             (cache_name dataset model generator n_img img_size npy kind) = true.
Proof. unfold cache_name. rewrite append_assoc. apply startswith_append. Qed.

Lemma kind_not_npy kind a :
  kind ∈ cache_kinds -> endswith ".npy" (a +:+ kind) = false.
Proof.
  intros H. unfold cache_kinds in H.
  literal_cases H; (apply endswith_append_false; [reflexivity | simpl; lia]).
Qed.

Lemma cache_name_suffix dataset generator model n_img img_size npy kind :
  kind ∈ cache_kinds ->
  endswith ".npy" (cache_name dataset model generator n_img img_size npy kind) = npy.
Proof.
  intros H. unfold cache_name. destruct npy.
  - apply endswith_append.
  - rewrite append_nil_r. now apply kind_not_npy.
Qed.

Lemma kind_nonempty kind a : kind ∈ cache_kinds -> a +:+ kind <> "".
Proof.
  intros H E. apply (f_equal String.length) in E. rewrite length_append in E.
  unfold cache_kinds in H. literal_cases H; simpl in E; lia.
Qed.

(** What [np.save] writes for an extension-less name is what
    [get_pretrained_weights] looks for. *)
Lemma save_path_cache_name root dataset generator model n_img img_size kind :
  kind ∈ cache_kinds ->
  save_path (path_join root (cache_name dataset model generator n_img img_size false kind))
  = path_join root (cache_name dataset model generator n_img img_size true kind).
Proof.
  intros H. unfold cache_name, save_path. rewrite append_nil_r.
  destruct (path_join_tail root
              (cache_base dataset model generator n_img (fst img_size) (snd img_size)
               +:+ kind)) as [z Hz].
  rewrite Hz at 1. rewrite <- append_assoc, (kind_not_npy kind _ H).
  symmetry. apply path_join_append. now apply kind_nonempty.
Qed.

Lemma saved_cache_paths root dataset generator model n_img img_size :
  map save_path
      (map (path_join root)
           (make_pretrained_filenames dataset generator model n_img img_size false))
  = map (path_join root)
        (make_pretrained_filenames dataset generator model n_img img_size true).
Proof.
  rewrite !make_pretrained_filenames_eq, !map_map.
  apply map_ext_in. intros kind Hk. apply save_path_cache_name.
  now apply list_elem_of_In.
Qed.

Lemma cache_paths_eq root dataset generator model n_img img_size :
  map (path_join root)
      (make_pretrained_filenames dataset generator model n_img img_size true)
  = cache_paths root dataset model generator n_img img_size.
Proof. rewrite make_pretrained_filenames_eq, map_map. reflexivity. Qed.

Lemma cache_name_starts dataset generator model n_img img_size npy kind kind' :
  startswith "/" (cache_name dataset model generator n_img img_size npy kind)
  = startswith "/" (cache_name dataset model generator n_img img_size npy kind').
Proof.
  unfold cache_name, cache_base. rewrite !append_assoc. apply startswith_slash_dash.
Qed.

(** The four files of the cache are four different paths. *)
Lemma cache_path_inj root dataset generator model n_img img_size kind kind' :
  kind ∈ cache_kinds -> kind' ∈ cache_kinds ->
  path_join root (cache_name dataset model generator n_img img_size true kind)
  = path_join root (cache_name dataset model generator n_img img_size true kind') ->
  kind = kind'.
Proof.
  intros Hk Hk' H.
  apply path_join_inj in H; [|apply cache_name_starts].
  unfold cache_name in H. rewrite !append_assoc in H. apply String.app_inj in H.
  unfold cache_kinds in Hk, Hk'.
  literal_cases Hk; literal_cases Hk'; first [reflexivity | discriminate H].
Qed.

(* ===================================================================== *)
(** ** Proofs: arrays keep their shape *)
(* ===================================================================== *)

Lemma ones_ok sh a : ones sh = Ok a -> shape a = sh /\ Forall (fun d => 0 <= d) sh.
Proof.
  unfold ones. destruct (forallb (fun d => 0 <=? d) sh) eqn:E; [|discriminate].
  intros [= <-]. split; [reflexivity|].
  apply Forall_forall. intros d Hd. apply list_elem_of_In in Hd.
  rewrite forallb_forall in E. specialize (E d Hd). lia.
Qed.

Lemma ones_nonneg sh : Forall (fun d => 0 <= d) sh -> exists a, ones sh = Ok a /\ shape a = sh.
Proof.
  intros H. unfold ones.
  assert (E : forallb (fun d => 0 <=? d) sh = true).
  { apply forallb_forall. intros d Hd. apply list_elem_of_In in Hd.
    rewrite Forall_forall in H. specialize (H d Hd). lia. }
  rewrite E. eexists; split; reflexivity.
Qed.

Lemma setitem_shape a i v a' : setitem a i v = Ok a' -> shape a' = shape a.
Proof.
  unfold setitem. destruct (shape a) as [|n t] eqn:E; [discriminate|].
  destruct ((0 <=? i) && (i <? n)); [|discriminate].
  destruct (broadcast v t); [|discriminate].
  intros [= <-]. reflexivity.
Qed.

Lemma setitem_row_shape a i v a' : setitem_row a i v = Ok a' -> shape a' = shape a.
Proof.
  unfold setitem_row. destruct (shape a) as [|? [|? ?]] eqn:E; try discriminate.
  rewrite <- E. apply setitem_shape.
Qed.

Lemma fold_result_invariant {A B} (P : B -> Prop) (f : A -> B -> result B) l :
  (forall x v v', P v -> f x v = Ok v' -> P v') ->
  forall v v', P v -> fold_result f l v = Ok v' -> P v'.
Proof.
  intros Hstep. induction l as [|x l IH]; intros v v' Hv; simpl.
  - now intros [= <-].
  - destruct (f x v) as [v1|e] eqn:E; [|discriminate].
    apply IH. eapply Hstep; eassumption.
Qed.

Lemma for_fold_lift {St A B} (f : A -> B -> result B) l : forall v (s : St),
  for_fold l v (fun x v => lift (f x v)) s = (fold_result f l v, s).
Proof.
  induction l as [|x l IH]; intros v s; [reflexivity|].
  cbn [for_fold fold_result]. unfold bind, lift at 1.
  destruct (f x v); [apply IH | reflexivity].
Qed.

Lemma fill_step_shapes sx sy i st st' :
  same_shapes sx sy st -> fill_step i st = Ok st' -> same_shapes sx sy st'.
Proof.
  intros (H1 & H2 & H3 & H4). unfold fill_step.
  destruct (next (st_train_generator st)) as [[[img_t lbl_t]|e] it_t]; [|discriminate].
  destruct (next (st_valid_generator st)) as [[[img_v lbl_v]|e] it_v]; [|discriminate].
  destruct (setitem_row (st_x_train st) _ _) as [xt|e] eqn:E1; [|discriminate].
  destruct (setitem (st_y_train st) _ _) as [yt|e] eqn:E2; [|discriminate].
  destruct (setitem_row (st_x_valid st) _ _) as [xv|e] eqn:E3; [|discriminate].
  destruct (setitem (st_y_valid st) _ _) as [yv|e] eqn:E4; [|discriminate].
  intros [= <-]. unfold same_shapes. cbn.
  apply setitem_row_shape in E1, E3. apply setitem_shape in E2, E4.
  repeat split; congruence.
Qed.

(* ===================================================================== *)
(** ** Proofs: the feature cache *)
(* ===================================================================== *)





(** One step of a computation: a pure call that returns or raises. *)
Ltac lift_step H :=
  lazymatch type of H with
  | bind (lift ?r) _ _ = _ =>
      let E := fresh "E" in
      destruct r eqn:E;
      [ erewrite bind_lift_ok in H by reflexivity
      | erewrite bind_lift_raise in H by reflexivity ];
      cbv beta in H
  end.

Section Cache.
Variables BASEPATH PRETRAINED_PATH image_data_format : string.
Variable flow_from_directory :
  ImageDataGenerator -> string -> Z * Z -> Z -> string -> DirectoryIterator.
Variable predict : Application -> ndarray -> ndarray.
Variables dataset generator class_mode model : string.
Variable n_img : Z.
Variable img_size : Z * Z.

Local Abbreviation make :=
  (make_pretrained_weights BASEPATH PRETRAINED_PATH image_data_format
     flow_from_directory predict dataset generator class_mode model n_img img_size).
Local Abbreviation get :=
  (get_pretrained_weights BASEPATH PRETRAINED_PATH image_data_format
     flow_from_directory predict dataset generator class_mode model n_img img_size).
Local Abbreviation check :=
  (check_file BASEPATH PRETRAINED_PATH image_data_format
     flow_from_directory predict dataset generator class_mode model n_img img_size).
Local Abbreviation name npy kind :=
  (cache_name dataset model generator n_img img_size npy kind).
Local Abbreviation path kind := (path_join PRETRAINED_PATH (name true kind)).
Local Abbreviation called := (CallMake dataset generator class_mode model n_img img_size).
Local Abbreviation remade :=
  (regenerated predict PRETRAINED_PATH dataset generator class_mode model n_img img_size).
Local Abbreviation image_shape_of datagen :=
  (image_shape (flow_from_directory datagen (fst (get_folders BASEPATH dataset))
                  img_size 1 class_mode)).

Lemma np_save_run file arr w :
  np_save file arr w
  = (Ok tt, World (<[save_path file := arr]> (fs w))
                  (trace w ++ [Save (save_path file) arr])).
Proof. reflexivity. Qed.

Lemma run_predict_run bm x w :
  run_predict predict bm x w = (Ok (predict bm x), World (fs w) (trace w ++ [Predict bm x])).
Proof. reflexivity. Qed.

(** A run of [make_pretrained_weights] either raises before anything is
    predicted or written, or goes through to the end. *)
Lemma make_inv w r w' :
  make w = (r, w') ->
  (exists e, r = Raise e /\ w' = World (fs w) (trace w ++ [called]))
  \/ (exists datagen base_model st,
        get_image_generator generator = Ok (Some datagen)
        /\ get_pretrained_model image_data_format model img_size = Ok base_model
        /\ same_shapes (n_img :: image_shape_of datagen) [n_img] st
        /\ 0 <= n_img
        /\ r = Ok tt /\ w' = remade base_model st w).
Proof.
  unfold make_pretrained_weights. intros H.
  erewrite bind_ok in H by reflexivity.
  rewrite make_pretrained_filenames_eq in H. unfold cache_kinds in H at 1.
  cbn [map unpack4] in H.
  erewrite bind_lift_ok in H by reflexivity. cbv beta iota in H.
  lift_step H.
  2:{ injection H as <- <-. left. eauto. }
  lift_step H.
  2:{ injection H as <- <-. left. eauto. }
  destruct a as [datagen|]; [|discriminate]. injection E0 as <-.
  unfold get_folders in H. cbn [fst snd] in H.
  lift_step H.
  2:{ injection H as <- <-. left. eauto. }
  rename a into x_train. apply ones_ok in E0 as [Sx _].
  lift_step H.
  2:{ injection H as <- <-. left. eauto. }
  rename a into y_train. apply ones_ok in E0 as [Sy Hn].
  erewrite bind_lift_ok in H by reflexivity. cbv beta in H.
  erewrite bind_lift_ok in H by reflexivity. cbv beta in H.
  match type of H with
  | bind (for_fold ?l ?v _) _ _ = _ =>
      destruct (fold_result fill_step l v) as [st|e] eqn:Efold
  end.
  2:{ erewrite bind_raise in H by (rewrite for_fold_lift, Efold; reflexivity).
      injection H as <- <-. left. eauto. }
  erewrite bind_ok in H by (rewrite for_fold_lift, Efold; reflexivity).
  lift_step H.
  2:{ injection H as <- <-. left. eauto. }
  rename a into base_model.
  erewrite bind_ok in H by apply run_predict_run.
  erewrite bind_ok in H by apply np_save_run.
  erewrite bind_ok in H by apply np_save_run.
  erewrite bind_ok in H by apply run_predict_run.
  erewrite bind_ok in H by apply np_save_run.
  rewrite np_save_run in H.
  rewrite !save_path_cache_name in H by (apply list_elem_of_In; simpl; tauto).
  cbn [fs trace] in H. rewrite <- !app_assoc in H. cbn [app] in H.
  injection H as <- <-. right.
  assert (Hst : same_shapes (n_img :: image_shape_of datagen) [n_img] st).
  { eapply (fold_result_invariant (same_shapes _ _)); [| |exact Efold].
    - intros i v v'. apply fill_step_shapes.
    - repeat split; assumption. }
  exists datagen, base_model, st.
  split; [reflexivity|]. split; [reflexivity|]. split; [exact Hst|].
  split; [now inversion Hn|]. split; reflexivity.
Qed.


(** *** The existence checks of [get_pretrained_weights] *)

Local Abbreviation found kinds := (map (fun kind => Exists (path kind) true) kinds).
Local Abbreviation names kinds :=
  (map (cache_name dataset model generator n_img img_size true) kinds).

Lemma check_present kind w :
  is_Some (fs w !! path kind) ->
  check (name true kind) w
  = (Ok tt, World (fs w) (trace w ++ [Exists (path kind) true])).
Proof.
  intros Hk. unfold check_file, path_exists.
  erewrite bind_ok.
  2:{ erewrite bind_ok by reflexivity. erewrite bind_ok by reflexivity. reflexivity. }
  cbn [fs]. now rewrite bool_decide_eq_true_2.
Qed.

Lemma check_missing kind w :
  fs w !! path kind = None ->
  check (name true kind) w
  = make (World (fs w) (trace w ++ [Exists (path kind) false])).
Proof.
  intros Hk. unfold check_file, path_exists.
  erewrite bind_ok.
  2:{ erewrite bind_ok by reflexivity. erewrite bind_ok by reflexivity. reflexivity. }
  cbn [fs]. rewrite bool_decide_eq_false_2; [reflexivity|].
  rewrite Hk. now intros [? ?].
Qed.

(** While every file is there, the loop only looks. *)
Lemma loop_present kinds : forall w,
  (forall kind, kind ∈ kinds -> is_Some (fs w !! path kind)) ->
  for_each (names kinds) check w
  = (Ok tt, World (fs w) (trace w ++ found kinds)).
Proof.
  induction kinds as [|kind kinds IH]; intros w Hall.
  - cbn. unfold ret. rewrite app_nil_r. now destruct w.
  - cbn [map for_each].
    erewrite bind_ok by (apply check_present, Hall; left).
    rewrite IH by (intros k Hk; apply Hall; now right).
    cbn [fs trace]. now rewrite <- app_assoc.
Qed.

(** After a complete regeneration the four files are there. *)
Lemma remade_present base_model st w kind :
  kind ∈ cache_kinds -> is_Some (fs (remade base_model st w) !! path kind).
Proof.
  intros H. unfold regenerated. cbn [fs]. unfold cache_kinds in H.
  literal_cases H; rewrite !lookup_insert_is_Some';
    repeat (first [left; reflexivity | right]).
Qed.

(** ... and hold the arrays that were just computed. *)
Lemma remade_lookup base_model st w :
  map (fun p => fs (remade base_model st w) !! p)
      (cache_paths PRETRAINED_PATH dataset model generator n_img img_size)
  = [Some (predict base_model (st_x_train st)); Some (st_y_train st);
     Some (predict base_model (st_x_valid st)); Some (st_y_valid st)].
Proof.
  unfold regenerated, cache_paths, cache_kinds. cbn [fs map].
  repeat f_equal;
    repeat first
      [ rewrite lookup_insert_eq; reflexivity
      | rewrite lookup_insert_ne
          by (intros E; apply cache_path_inj in E;
              [discriminate E | apply list_elem_of_In; simpl; tauto
               | apply list_elem_of_In; simpl; tauto]) ].
Qed.

(** The loop over the file names: nothing is missing; or the first missing
    file starts a regeneration, which raises; or it goes through, and the
    remaining files are found. *)
Lemma loop_inv kinds : forall w r w',
  kinds ⊆ cache_kinds ->
  for_each (names kinds) check w = (r, w') ->
  ((forall kind, kind ∈ kinds -> is_Some (fs w !! path kind))
   /\ r = Ok tt /\ w' = World (fs w) (trace w ++ found kinds))
  \/ (exists before kind after,
        kinds = before ++ kind :: after
        /\ (forall k, k ∈ before -> is_Some (fs w !! path k))
        /\ fs w !! path kind = None
        /\ let w1 := World (fs w)
                       (trace w ++ found before ++ [Exists (path kind) false]) in
           (exists e, r = Raise e /\ w' = World (fs w) (trace w1 ++ [called]))
           \/ (exists datagen base_model st,
                 get_image_generator generator = Ok (Some datagen)
                 /\ get_pretrained_model image_data_format model img_size = Ok base_model
                 /\ same_shapes (n_img :: image_shape_of datagen) [n_img] st
                 /\ 0 <= n_img
                 /\ r = Ok tt
                 /\ w' = World (fs (remade base_model st w1))
                          (trace (remade base_model st w1) ++ found after))).
Proof.
  induction kinds as [|kind kinds IH]; intros w r w' Hsub H.
  - left. cbn in H. injection H as <- <-. repeat split.
    + intros k Hk. now apply elem_of_nil in Hk.
    + cbn. rewrite app_nil_r. now destruct w.
  - cbn [map for_each] in H.
    assert (Hsub' : kinds ⊆ cache_kinds) by set_solver.
    destruct (fs w !! path kind) as [a|] eqn:Ek.
    + erewrite bind_ok in H by (apply check_present; rewrite Ek; eauto).
      apply IH in H as [(Hall & -> & ->) | (before & k & after & -> & Hb & Hk & Hr)];
        [| |exact Hsub'].
      * left. cbn [fs trace]. rewrite <- app_assoc. repeat split.
        intros k0 Hk0. apply elem_of_cons in Hk0 as [-> | Hk0]; [rewrite Ek; eauto|].
        now apply Hall.
      * right. exists (kind :: before), k, after. cbn [fs trace] in *.
        split; [reflexivity|]. split.
        { intros k0 Hk0. apply elem_of_cons in Hk0 as [-> | Hk0]; [rewrite Ek; eauto|].
          now apply Hb. }
        split; [exact Hk|].
        cbv zeta in Hr |- *. cbn [fs trace map] in Hr |- *.
        replace (trace w ++ (Exists (path kind) true :: found before)
                 ++ [Exists (path k) false])
          with ((trace w ++ [Exists (path kind) true]) ++ found before
                ++ [Exists (path k) false])
          by (now rewrite <- app_assoc).
        exact Hr.
    + right. exists [], kind, kinds. split; [reflexivity|]. split.
      { intros k0 Hk0. now apply elem_of_nil in Hk0. }
      split; [exact Ek|]. cbn [map app].
      unfold bind in H at 1. rewrite check_missing in H by exact Ek.
      destruct (make (World (fs w) (trace w ++ [Exists (path kind) false])))
        as [r1 w1] eqn:Emake.
      destruct (make_inv _ _ _ Emake)
        as [[e [-> ->]] | (dg & bm & st & Hg & Hm & Hs & Hn & -> & ->)].
      * left. injection H as <- <-. eauto.
      * right. rewrite loop_present in H.
        2:{ intros k0 Hk0. apply remade_present. set_solver. }
        injection H as <- <-. exists dg, bm, st.
        split; [exact Hg|]. split; [exact Hm|]. split; [exact Hs|].
        split; [exact Hn|]. split; reflexivity.
Qed.

(** *** The loads of [get_pretrained_weights] *)

Local Abbreviation loaded :=
  [Load (path "-train-data"); Load (path "-train-label");
   Load (path "-valid-data"); Load (path "-valid-label")].

Lemma np_load_run p a w :
  fs w !! p = Some a -> np_load p w = (Ok a, World (fs w) (trace w ++ [Load p])).
Proof.
  intros Hp. unfold np_load. erewrite bind_ok by reflexivity. rewrite Hp.
  erewrite bind_ok by reflexivity. reflexivity.
Qed.

Lemma loads_run w a1 a2 a3 a4 :
  fs w !! path "-train-data" = Some a1 -> fs w !! path "-train-label" = Some a2 ->
  fs w !! path "-valid-data" = Some a3 -> fs w !! path "-valid-label" = Some a4 ->
  bind (np_load (path "-train-data")) (fun x_train =>
  bind (np_load (path "-train-label")) (fun y_train =>
  bind (np_load (path "-valid-data")) (fun x_valid =>
  bind (np_load (path "-valid-label")) (fun y_valid =>
  ret (x_train, y_train, x_valid, y_valid))))) w
  = (Ok (a1, a2, a3, a4), World (fs w) (trace w ++ loaded)).
Proof.
  intros H1 H2 H3 H4.
  erewrite bind_ok by (apply np_load_run; exact H1).
  erewrite bind_ok by (apply np_load_run; exact H2).
  erewrite bind_ok by (apply np_load_run; exact H3).
  erewrite bind_ok by (apply np_load_run; exact H4).
  unfold ret. cbn [fs trace]. now rewrite <- !app_assoc.
Qed.

Lemma get_unfold w :
  get w
  = bind (for_each (names cache_kinds) check) (fun _ =>
    bind (np_load (path "-train-data")) (fun x_train =>
    bind (np_load (path "-train-label")) (fun y_train =>
    bind (np_load (path "-valid-data")) (fun x_valid =>
    bind (np_load (path "-valid-label")) (fun y_valid =>
    ret (x_train, y_train, x_valid, y_valid)))))) w.
Proof.
  unfold get_pretrained_weights. rewrite make_pretrained_filenames_eq. reflexivity.
Qed.

(** The three ways a call of [get_pretrained_weights] can go. *)
Lemma get_inv w r w' :
  get w = (r, w') ->
  (exists a1 a2 a3 a4,
     map (fun p => fs w !! p)
         (cache_paths PRETRAINED_PATH dataset model generator n_img img_size)
     = [Some a1; Some a2; Some a3; Some a4]
     /\ r = Ok (a1, a2, a3, a4)
     /\ w' = World (fs w) (trace w ++ found cache_kinds ++ loaded))
  \/ (exists before kind after,
        cache_kinds = before ++ kind :: after
        /\ (forall k, k ∈ before -> is_Some (fs w !! path k))
        /\ fs w !! path kind = None
        /\ let w1 := World (fs w)
                       (trace w ++ found before ++ [Exists (path kind) false]) in
           (exists e, r = Raise e /\ w' = World (fs w) (trace w1 ++ [called]))
           \/ (exists datagen base_model st,
                 get_image_generator generator = Ok (Some datagen)
                 /\ get_pretrained_model image_data_format model img_size = Ok base_model
                 /\ same_shapes (n_img :: image_shape_of datagen) [n_img] st
                 /\ 0 <= n_img
                 /\ r = Ok (predict base_model (st_x_train st), st_y_train st,
                            predict base_model (st_x_valid st), st_y_valid st)
                 /\ w' = World (fs (remade base_model st w1))
                          (trace (remade base_model st w1) ++ found after ++ loaded))).
Proof.
  rewrite get_unfold. intros H.
  destruct (for_each (names cache_kinds) check w) as [r1 w1] eqn:Eloop.
  destruct (loop_inv cache_kinds w r1 w1 ltac:(reflexivity) Eloop)
    as [(Hall & -> & ->) | (before & kind & after & Hk & Hb & Hm & Hr)].
  - left.
    assert (Hin : forall k, In k cache_kinds -> is_Some (fs w !! path k))
      by (intros k Hk; apply Hall; now apply list_elem_of_In).
    destruct (Hin "-train-data") as [a1 H1]; [simpl; tauto|].
    destruct (Hin "-train-label") as [a2 H2]; [simpl; tauto|].
    destruct (Hin "-valid-data") as [a3 H3]; [simpl; tauto|].
    destruct (Hin "-valid-label") as [a4 H4]; [simpl; tauto|].
    exists a1, a2, a3, a4.
    erewrite bind_ok in H by exact Eloop.
    rewrite (loads_run _ a1 a2 a3 a4) in H by assumption.
    injection H as <- <-. cbn [fs trace]. rewrite <- app_assoc.
    split; [|split; reflexivity].
    unfold cache_paths, cache_kinds. cbn [map]. now rewrite H1, H2, H3, H4.
  - right. exists before, kind, after. split; [exact Hk|]. split; [exact Hb|].
    split; [exact Hm|]. cbv zeta in Hr |- *.
    destruct Hr as [(e & -> & ->) | (dg & bm & st & Hg & Hbm & Hs & Hn & -> & ->)].
    + left. erewrite bind_raise in H by exact Eloop. injection H as <- <-. eauto.
    + right. erewrite bind_ok in H by exact Eloop.
      set (w2 := remade bm st _) in *.
      pose proof (remade_lookup bm st
                    (World (fs w) (trace w ++ found before ++ [Exists (path kind) false])))
        as Hlook.
      fold w2 in Hlook. unfold cache_paths, cache_kinds in Hlook. cbn [map] in Hlook.
      injection Hlook as H1 H2 H3 H4.
      rewrite (loads_run (World (fs w2) (trace w2 ++ found after)) _ _ _ _ H1 H2 H3 H4)
        in H.
      injection H as <- <-. exists dg, bm, st.
      split; [exact Hg|]. split; [exact Hbm|]. split; [exact Hs|].
      split; [exact Hn|]. split; [reflexivity|].
      cbn [fs trace]. now rewrite <- app_assoc.
Qed.

(** *** Reading the traces *)

Lemma calls_app t1 t2 : calls (t1 ++ t2) = calls t1 ++ calls t2.
Proof. apply List.filter_app. Qed.

Lemma saved_paths_app t1 t2 : saved_paths (t1 ++ t2) = saved_paths t1 ++ saved_paths t2.
Proof. apply flat_map_app. Qed.

Lemma checked_paths_app t1 t2 :
  checked_paths (t1 ++ t2) = checked_paths t1 ++ checked_paths t2.
Proof. apply flat_map_app. Qed.

Lemma loaded_paths_app t1 t2 :
  loaded_paths (t1 ++ t2) = loaded_paths t1 ++ loaded_paths t2.
Proof. apply flat_map_app. Qed.

Lemma missed_paths_app t1 t2 :
  missed_paths (t1 ++ t2) = missed_paths t1 ++ missed_paths t2.
Proof. apply flat_map_app. Qed.

Lemma found_reads kinds :
  calls (found kinds) = [] /\ saved_paths (found kinds) = []
  /\ loaded_paths (found kinds) = [] /\ missed_paths (found kinds) = []
  /\ checked_paths (found kinds) = map (fun kind => path kind) kinds.
Proof.
  induction kinds as [|k kinds (I1 & I2 & I3 & I4 & I5)]; [now repeat split|].
  cbn [map]. repeat split; [exact I1 | exact I2 | exact I3 | exact I4 |].
  change (checked_paths (Exists (path k) true :: found kinds))
    with (path k :: checked_paths (found kinds)).
  now rewrite I5.
Qed.

(** Normalises what was read off an explicit trace. *)
Ltac read_trace :=
  rewrite ?calls_app, ?saved_paths_app, ?checked_paths_app, ?loaded_paths_app,
    ?missed_paths_app;
  rewrite ?(proj1 (found_reads _)), ?(proj1 (proj2 (found_reads _))),
    ?(proj1 (proj2 (proj2 (found_reads _)))),
    ?(proj1 (proj2 (proj2 (proj2 (found_reads _))))),
    ?(proj2 (proj2 (proj2 (proj2 (found_reads _)))));
  cbn [calls saved_paths checked_paths loaded_paths missed_paths
       List.filter flat_map is_call app].

(** *** The claims about the cache *)

Local Abbreviation filenames npy :=
  (make_pretrained_filenames dataset generator model n_img img_size npy).
Local Abbreviation paths :=
  (map (path_join PRETRAINED_PATH) (filenames true)).

Lemma paths_eq : paths = map (fun kind => path kind) cache_kinds.
Proof. rewrite make_pretrained_filenames_eq, map_map. reflexivity. Qed.

Lemma loaded_reads :
  calls loaded = [] /\ saved_paths loaded = [] /\ missed_paths loaded = []
  /\ checked_paths loaded = [] /\ loaded_paths loaded = paths.
Proof. rewrite paths_eq. now repeat split. Qed.

(** A call that finds the four files. *)
Lemma get_cached_run w a1 a2 a3 a4 :
  map (fun p => fs w !! p) paths = [Some a1; Some a2; Some a3; Some a4] ->
  get w = (Ok (a1, a2, a3, a4),
           World (fs w) (trace w ++ map (fun p => Exists p true) paths ++ map Load paths)).
Proof.
  rewrite paths_eq. unfold cache_kinds. cbn [map]. intros [= H1 H2 H3 H4].
  rewrite get_unfold.
  erewrite bind_ok.
  2:{ apply loop_present. intros k Hk. unfold cache_kinds in Hk.
      literal_cases Hk; eauto. }
  rewrite (loads_run _ a1 a2 a3 a4) by assumption.
  cbn [fs trace]. now rewrite <- app_assoc.
Qed.


Lemma missing_path_iff w :
  (exists p, p ∈ paths /\ fs w !! p = None)
  <-> exists kind, kind ∈ cache_kinds /\ fs w !! path kind = None.
Proof.
  rewrite paths_eq. split.
  - intros (p & Hp & Hn). apply list_elem_of_fmap in Hp as (k & -> & Hk). eauto.
  - intros (k & Hk & Hn). exists (path k). split; [|exact Hn].
    apply list_elem_of_fmap. eauto.
Qed.

(** C1.  For every parameter tuple and every disk, [get_pretrained_weights]
    calls [make_pretrained_weights] exactly when one of the four cache
    files is missing at its existence check: there is one call, with the
    same parameters, per failed check, at most one in all, and there is one
    if and only if one of the four files is not on the disk at the start;
    when the call goes through, all four arrays have been saved and the
    four files exist. *)
Theorem get_pretrained_weights_regenerates w :
  exists evs,
    trace (snd (get w)) = trace w ++ evs
    /\ calls evs = map (fun _ => called) (missed_paths evs)
    /\ (length (calls evs) <= 1)%nat
    /\ (calls evs <> [] <-> exists p, p ∈ paths /\ fs w !! p = None)
    /\ (calls evs = [] -> saved_paths evs = [] /\ fs (snd (get w)) = fs w)
    /\ (calls evs <> [] -> is_ok (fst (get w)) = true ->
        saved_paths evs = paths
        /\ forall p, p ∈ paths -> is_Some (fs (snd (get w)) !! p)).
Proof.
  destruct (get w) as [r w'] eqn:E. cbn [fst snd].
  pose proof (missing_path_iff w) as Hmiss.
  destruct (get_inv w r w' E)
    as [(a1 & a2 & a3 & a4 & Hall & -> & ->)
       | (before & kind & after & Hk & Hb & Hm & Hr)].
  - exists (found cache_kinds ++ loaded). cbn [fs trace].
    split; [reflexivity|]. read_trace. rewrite Hmiss.
    unfold cache_paths, cache_kinds in Hall. cbn [map] in Hall.
    injection Hall as H1 H2 H3 H4.
    repeat split; try easy; try (simpl; lia).
    intros (k & Hin & Hnone). unfold cache_kinds in Hin.
    literal_cases Hin; congruence.
  - assert (Hkind : kind ∈ cache_kinds)
      by (rewrite Hk; apply elem_of_app; right; left).
    cbv zeta in Hr.
    destruct Hr as [(e & -> & ->) | (dg & bm & st & _ & _ & _ & _ & -> & ->)].
    + exists (found before ++ [Exists (path kind) false; called]). cbn [fs trace].
      split; [now rewrite <- !app_assoc|]. read_trace. rewrite Hmiss.
      repeat split; try easy; try (simpl; lia). eauto.
    + exists (found before
              ++ [Exists (path kind) false; called;
                  Predict bm (st_x_train st);
                  Save (path "-train-data") (predict bm (st_x_train st));
                  Save (path "-train-label") (st_y_train st);
                  Predict bm (st_x_valid st);
                  Save (path "-valid-data") (predict bm (st_x_valid st));
                  Save (path "-valid-label") (st_y_valid st)]
              ++ found after ++ loaded).
      unfold regenerated. cbn [fs trace].
      split; [now rewrite <- !app_assoc|]. read_trace. rewrite Hmiss.
      rewrite ?app_nil_r.
      repeat split; try easy; try (simpl; lia); eauto.
      intros p Hp. rewrite paths_eq in Hp.
      apply list_elem_of_fmap in Hp as (k & -> & Hk').
      apply (remade_present bm st (World (fs w) []) k Hk').
Qed.


(** C2.  The names of the cache files are a function of the dataset, the
    model, the generator, [n_img] and the image size:
    [make_pretrained_filenames] returns four names, for the training data,
    the training labels, the validation data and the validation labels in
    this order, each starting with
    [{dataset}-{model}-{generator}-{n_img}-{width}x{height}] and ending in
    [.npy] exactly when [npy] is true; and the paths that
    [make_pretrained_weights] writes ([np.save] appends [.npy] to the
    extension-less names) are the paths that [get_pretrained_weights]
    checks and then loads. *)
Theorem cache_file_names :
  (forall npy,
     filenames npy
     = map (fun kind =>
              (cache_base dataset model generator n_img (fst img_size) (snd img_size)
               +:+ kind) +:+ (if npy then ".npy" else ""))
           ["-train-data"; "-train-label"; "-valid-data"; "-valid-label"])
  /\ (forall npy file,
        file ∈ filenames npy ->
        startswith (cache_base dataset model generator n_img (fst img_size) (snd img_size))
                   file = true
        /\ endswith ".npy" file = npy)
  /\ map save_path (map (path_join PRETRAINED_PATH) (filenames false)) = paths
  /\ (forall w,
        fst (make w) = Ok tt ->
        saved_paths (drop (length (trace w)) (trace (snd (make w)))) = paths)
  /\ (forall w,
        is_ok (fst (get w)) = true ->
        let evs := drop (length (trace w)) (trace (snd (get w))) in
        checked_paths evs = paths /\ loaded_paths evs = paths
        /\ (saved_paths evs = [] \/ saved_paths evs = paths)).
Proof.
  split; [|split; [|split; [|split]]].
  - intros npy. apply make_pretrained_filenames_eq.
  - intros npy file Hf. rewrite make_pretrained_filenames_eq in Hf.
    apply list_elem_of_fmap in Hf as (kind & -> & Hk).
    split; [apply cache_name_prefix | now apply cache_name_suffix].
  - apply saved_cache_paths.
  - intros w. destruct (make w) as [r w'] eqn:E. cbn [fst snd].
    destruct (make_inv w r w' E)
      as [(e & -> & ->) | (dg & bm & st & _ & _ & _ & _ & -> & ->)]; [discriminate|].
    intros _. unfold regenerated. cbn [trace].
    rewrite drop_app_length. now rewrite paths_eq.
  - intros w. destruct (get w) as [r w'] eqn:E. cbn [fst snd].
    destruct (get_inv w r w' E)
      as [(a1 & a2 & a3 & a4 & _ & -> & ->)
         | (before & kind & after & Hk & _ & _ & Hr)].
    + intros _. cbn [trace]. rewrite drop_app_length. cbv zeta. read_trace.
      rewrite !app_nil_r, <- paths_eq. repeat split. now left.
    + cbv zeta in Hr.
      destruct Hr as [(e & -> & ->) | (dg & bm & st & _ & _ & _ & _ & -> & ->)];
        [discriminate|].
      intros _. unfold regenerated. cbn [trace]. rewrite <- !app_assoc.
      rewrite drop_app_length. cbv zeta. read_trace.
      rewrite ?app_nil_r.
      assert (Hp : map (fun k => path k) before ++ path kind :: map (fun k => path k) after
                   = paths)
        by (rewrite paths_eq, Hk, map_app; reflexivity).
      repeat split; [exact Hp | right; now rewrite paths_eq].
Qed.


(** *** More about the cache *)

(** X4.  A call of [get_pretrained_weights] that returns leaves the cache
    complete: the same call made again finds the four files, calls
    nothing, writes nothing, and returns the same four arrays. *)
Theorem get_pretrained_weights_twice w :
  is_ok (fst (get w)) = true ->
  exists evs,
    get (snd (get w))
    = (fst (get w), World (fs (snd (get w))) (trace (snd (get w)) ++ evs))
    /\ calls evs = [] /\ saved_paths evs = [].
Proof.
  destruct (get w) as [r w'] eqn:E. cbn [fst snd].
  destruct (get_inv w r w' E)
    as [(a1 & a2 & a3 & a4 & Hall & -> & ->)
       | (before & kind & after & Hk & Hb & Hm & Hr)]; intros Hok.
  - exists (map (fun p => Exists p true) paths ++ map Load paths).
    split; [|rewrite paths_eq; unfold cache_kinds; now split].
    apply get_cached_run. cbn [fs]. now rewrite cache_paths_eq.
  - cbv zeta in Hr.
    destruct Hr as [(e & -> & ->) | (dg & bm & st & _ & _ & _ & _ & -> & ->)];
      [discriminate|].
    exists (map (fun p => Exists p true) paths ++ map Load paths).
    split; [|rewrite paths_eq; unfold cache_kinds; now split].
    apply get_cached_run. cbn [fs]. rewrite cache_paths_eq. apply remade_lookup.
Qed.



(** When every regeneration raises [e], a call that misses a file raises
    [e] and leaves the disk alone. *)
Lemma loop_raises e kinds :
  (forall w, make w = (Raise e, World (fs w) (trace w ++ [called]))) ->
  forall w,
    (exists kind, kind ∈ kinds /\ fs w !! path kind = None) ->
    exists t, for_each (names kinds) check w = (Raise e, World (fs w) t).
Proof.
  intros Hmake. induction kinds as [|kind kinds IH]; intros w (k & Hk & Hnone).
  - now apply elem_of_nil in Hk.
  - cbn [map for_each]. destruct (fs w !! path kind) as [a|] eqn:Ek.
    + erewrite bind_ok by (apply check_present; rewrite Ek; eauto).
      apply elem_of_cons in Hk as [-> | Hk]; [congruence|].
      destruct (IH (World (fs w) (trace w ++ [Exists (path kind) true])))
        as [t Ht]; [exists k; now split|].
      rewrite Ht. eauto.
    + erewrite bind_raise.
      2:{ rewrite check_missing by exact Ek. apply Hmake. }
      eauto.
Qed.


(** *** What the arrays hold *)

Import Fill.















Local Abbreviation train_of datagen :=
  (flow_from_directory datagen (fst (get_folders BASEPATH dataset)) img_size 1 class_mode).
Local Abbreviation valid_of datagen :=
  (flow_from_directory datagen (snd (get_folders BASEPATH dataset)) img_size 1 class_mode).


(** *** Labels that are no single numbers *)

Lemma strip_ones_squeezed k (a : ndarray) :
  strip_ones k (shape (squeeze a)) = shape (squeeze a).
Proof.
  destruct k as [|k]; [now destruct (shape (squeeze a))|].
  unfold squeeze. cbn [shape].
  destruct (filter (fun d => d ≠ 1) (shape a)) as [|d s] eqn:E; [reflexivity|].
  assert (Hd : d ≠ 1).
  { assert (Hin : d ∈ filter (fun d => d ≠ 1) (shape a)) by (rewrite E; left).
    now apply list_elem_of_filter in Hin as [Hd _]. }
  cbn [strip_ones]. destruct d as [|[p|p|]|]; try reflexivity. congruence.
Qed.

(** A squeezed value with an axis left does not go into one entry. *)
Lemma setitem_entry_raises a n i v :
  shape a = [n] -> shape (squeeze v) <> [] -> 0 <= i < n ->
  setitem a i (squeeze v)
  = Raise (ValueError "could not broadcast input array into the indexed shape").
Proof.
  intros Ha Hv Hi. unfold setitem. rewrite Ha.
  replace ((0 <=? i) && (i <? n))%bool with true by lia.
  unfold broadcast, align. rewrite strip_ones_squeezed. cbn [length Nat.sub repeat app].
  destruct (shape (squeeze v)) as [|d s]; [congruence|]. reflexivity.
Qed.

Lemma setitem_row_cases a n sh i v :
  shape a = n :: sh -> sh <> [] -> 0 <= i < n ->
  (exists a', setitem_row a i v = Ok a' /\ shape a' = n :: sh)
  \/ setitem_row a i v
     = Raise (ValueError "could not broadcast input array into the indexed shape").
Proof.
  intros Ha Hsh Hi. unfold setitem_row, setitem. rewrite Ha.
  destruct sh as [|d sh]; [congruence|].
  replace ((0 <=? i) && (i <? n))%bool with true by lia.
  destruct (broadcast v (d :: sh)) as [row|e] eqn:E.
  - left. eexists. split; reflexivity.
  - right. unfold broadcast in E.
    destruct (compatible (align (shape v) (d :: sh)) (d :: sh)); [discriminate|].
    now injection E as <-.
Qed.

Lemma make_raise_with w datagen x y e :
  get_image_generator generator = Ok (Some datagen) ->
  ones (n_img :: image_shape_of datagen) = Ok x ->
  ones [n_img] = Ok y ->
  fold_result fill_step (seq 0 (Z.to_nat n_img))
    (LoopState (train_of datagen) (valid_of datagen) x y x y)
  = Raise e ->
  make w = (Raise e, World (fs w) (trace w ++ [called])).
Proof.
  intros Hgen Ex Ey Est.
  unfold make_pretrained_weights.
  erewrite bind_ok by reflexivity.
  rewrite make_pretrained_filenames_eq. unfold cache_kinds at 1. cbn [map unpack4].
  erewrite bind_lift_ok by reflexivity. cbv beta iota.
  erewrite bind_lift_ok by exact Hgen.
  erewrite bind_lift_ok by reflexivity.
  unfold get_folders in *. cbn [fst snd] in *.
  erewrite bind_lift_ok by exact Ex.
  erewrite bind_lift_ok by exact Ey.
  erewrite bind_lift_ok by exact Ex.
  erewrite bind_lift_ok by exact Ey.
  erewrite bind_raise by (rewrite for_fold_lift, Est; reflexivity).
  reflexivity.
Qed.

(** X10.  Only labels of one number can be cached.  When the first
    training batch carries a label that keeps an axis after the squeeze
    (as the one-hot labels of a class mode other than binary, for two
    classes or more), [make_pretrained_weights] for one image or more
    raises [ValueError] before the pretrained model is made: nothing is
    predicted and nothing is written, and [get_pretrained_weights] raises
    the same error whenever one of the four files is missing. *)
Theorem make_pretrained_weights_label_vector w datagen img lbl :
  get_image_generator generator = Ok (Some datagen) ->
  1 <= n_img ->
  Forall (fun d => 0 <= d) (image_shape_of datagen) ->
  image_shape_of datagen <> [] ->
  batch_at (train_of datagen) (batch_index (train_of datagen)) = Ok (img, lbl) ->
  is_ok (batch_at (valid_of datagen) (batch_index (valid_of datagen))) = true ->
  shape (squeeze lbl) <> [] ->
  exists msg,
    make w = (Raise (ValueError msg), World (fs w) (trace w ++ [called]))
    /\ ((exists p, p ∈ paths /\ fs w !! p = None) ->
        fst (get w) = Raise (ValueError msg) /\ fs (snd (get w)) = fs w).
Proof.
  intros Hgen Hn Hsh Hne Bt Bv Hlbl.
  exists "could not broadcast input array into the indexed shape".
  destruct (batch_at (valid_of datagen) (batch_index (valid_of datagen)))
    as [[img_v lbl_v]|ev] eqn:Ev; [clear Bv | discriminate].
  assert (Hx : Forall (fun d => 0 <= d) (n_img :: image_shape_of datagen))
    by (constructor; [lia | assumption]).
  assert (Hy : Forall (fun d => 0 <= d) [n_img]) by (constructor; [lia | constructor]).
  destruct (ones_nonneg _ Hx) as (x & Ex & Sx).
  destruct (ones_nonneg _ Hy) as (y & Ey & Sy).
  assert (Hmake : forall w0, make w0
            = (Raise (ValueError
                        "could not broadcast input array into the indexed shape"),
               World (fs w0) (trace w0 ++ [called]))).
  { intros w0. apply (make_raise_with w0 datagen x y _ Hgen Ex Ey).
    destruct (Z.to_nat n_img) as [|N] eqn:EN; [lia|].
    cbn [seq fold_result]. unfold fill_step, next.
    cbn [st_train_generator st_valid_generator st_x_train st_y_train st_x_valid
         st_y_valid].
    rewrite Bt, Ev.
    destruct (setitem_row_cases x n_img (image_shape_of datagen) (Z.of_nat 0)
                (squeeze img) Sx Hne ltac:(lia)) as [(x' & -> & _) | ->];
      [|reflexivity].
    now rewrite (setitem_entry_raises y n_img (Z.of_nat 0) lbl Sy Hlbl ltac:(lia)). }
  split; [apply Hmake|].
  intros Hmiss. apply missing_path_iff in Hmiss.
  destruct (loop_raises _ cache_kinds Hmake w Hmiss) as [t Ht].
  rewrite get_unfold. erewrite bind_raise by exact Ht. now split.
Qed.

End Cache.


(* ===================================================================== *)
(** ** Proofs: the folders of a dataset *)
(* ===================================================================== *)

(** X11.  The training and the validation images are read from two
    different folders, [train] and [validation] of one and the same
    directory; and a dataset given as an absolute path is looked for
    there, whatever [BASEPATH] is. *)
Theorem get_folders_paths (BASEPATH dataset : string) :
  (exists dir, get_folders BASEPATH dataset = (dir +:+ "train", dir +:+ "validation"))
  /\ fst (get_folders BASEPATH dataset) <> snd (get_folders BASEPATH dataset)
  /\ (startswith "/" dataset = true ->
      forall BASEPATH', get_folders BASEPATH' dataset = get_folders BASEPATH dataset).
Proof.
  assert (Hdir : exists dir,
             get_folders BASEPATH dataset = (dir +:+ "train", dir +:+ "validation")).
  { unfold get_folders, path_join at 1 3.
    change (startswith "/" "train") with false.
    change (startswith "/" "validation") with false.
    destruct (String.eqb (path_join BASEPATH dataset) ""
              || endswith "/" (path_join BASEPATH dataset))%bool.
    - now exists (path_join BASEPATH dataset).
    - exists (path_join BASEPATH dataset +:+ "/"). now rewrite !append_assoc. }
  split; [exact Hdir|]. split.
  - destruct Hdir as [dir ->]. cbn [fst snd]. intros E.
    apply String.app_inj in E. discriminate.
  - intros Habs BASEPATH'. unfold get_folders, path_join at 2 4 6 8.
    now rewrite Habs.
Qed.

(* ===================================================================== *)
(** ** The cache at work *)
(* ===================================================================== *)

(** On an empty disk the first check fails, the cache is regenerated once,
    the other three checks succeed, and the four files are loaded. *)
Example regeneration_on_empty_disk :
  let out := Demo.get_pretrained_weights Demo.empty_disk in
  is_ok (fst out) = true
  /\ length (calls (trace (snd out))) = 1%nat
  /\ missed_paths (trace (snd out))
     = ["/cache/catdog-vgg16-random-2-2x2-train-data.npy"]
  /\ saved_paths (trace (snd out))
     = ["/cache/catdog-vgg16-random-2-2x2-train-data.npy";
        "/cache/catdog-vgg16-random-2-2x2-train-label.npy";
        "/cache/catdog-vgg16-random-2-2x2-valid-data.npy";
        "/cache/catdog-vgg16-random-2-2x2-valid-label.npy"]
  /\ loaded_paths (trace (snd out)) = saved_paths (trace (snd out)).
Proof. vm_compute. repeat split. Qed.

(** An unknown generator kind: the regeneration raises and nothing is
    written. *)
Example regeneration_raises :
  Utils.get_pretrained_weights "/data" "/cache" "channels_last" Demo.flow_from_directory
    Demo.predict "catdog" "wild" "binary" "vgg16" 2 (2, 2) Demo.empty_disk
  = (Raise (ValueError "kind needs to be in `random`, `very-random`, `not-random`"),
     World ∅ [Exists "/cache/catdog-vgg16-wild-2-2x2-train-data.npy" false;
              CallMake "catdog" "wild" "binary" "vgg16" 2 (2, 2)]).
Proof. vm_compute. reflexivity. Qed.






(** The empty disk, asked twice: the second call only reads. *)
Lemma get_pretrained_weights_twice_witness :
  exists evs,
    Demo.get_pretrained_weights (snd (Demo.get_pretrained_weights Demo.empty_disk))
    = (fst (Demo.get_pretrained_weights Demo.empty_disk),
       World (fs (snd (Demo.get_pretrained_weights Demo.empty_disk)))
             (trace (snd (Demo.get_pretrained_weights Demo.empty_disk)) ++ evs))
    /\ calls evs = [] /\ saved_paths evs = [].
Proof.
  apply (get_pretrained_weights_twice "/data" "/cache" "channels_last"
           Demo.flow_from_directory Demo.predict "catdog" "random" "binary" "vgg16"
           2 (2, 2) Demo.empty_disk).
  vm_compute. reflexivity.
Defined.





(** One-hot labels of two classes: the regeneration raises at the first
    image. *)
Lemma make_pretrained_weights_label_vector_witness :
  exists msg,
    Utils.make_pretrained_weights "/data" "/cache" "channels_last"
      OneHot.flow_from_directory Demo.predict "catdog" "random" "categorical" "vgg16"
      2 (2, 2) Demo.empty_disk
    = (Raise (ValueError msg),
       World ∅ [CallMake "catdog" "random" "categorical" "vgg16" 2 (2, 2)]).
Proof.
  destruct (make_pretrained_weights_label_vector "/data" "/cache" "channels_last"
              OneHot.flow_from_directory Demo.predict "catdog" "random" "categorical"
              "vgg16" 2 (2, 2) Demo.empty_disk
              (ImageDataGenerator_new (Some (1 / 255)%float) (Some 0.1%float)
                 (Some 0.1%float) None)
              (Array [1; 2; 2; 3] (repeat 0%float 12))
              (Array [1; 2] [1; 0]%float))
    as (msg & Hrun & _).
  - reflexivity.
  - lia.
  - cbn. repeat (apply List.Forall_cons; [lia|]). apply List.Forall_nil.
  - discriminate.
  - reflexivity.
  - reflexivity.
  - discriminate.
  - exists msg. exact Hrun.
Defined.
